(** * The Ren'Py updater ([updater.py]): a shallow embedding and its properties

    The update thread of [updater.py] is embedded as a state-and-exception
    monad over a record holding the fields of the [Updater] object, the
    filesystem and a few ghost fields used to state properties.  Everything
    the module imports (json, tarfile, hashlib, urllib, urlparse, subprocess,
    os) and everything outside the process (the server, the zsync binary, the
    user interface, the operating system's decisions) is gathered in a record
    [Env] the embedding is parameterised by. *)

From Stdlib Require Import ZArith QArith Lqa Ascii String.
From stdpp Require Import base option list gmap strings sorting.

Set Warnings "-clear-no-such-hyp".

Local Open Scope string_scope.
Local Open Scope Z_scope.
Local Open Scope list_scope.

(** ** Python strings *)

Module Str.

(** [s.startswith(p)], returning what follows the prefix. *)
Fixpoint strip_prefix (p s : string) : option string :=
  match p with
  | EmptyString => Some s
  | String a p' =>
      match s with
      | EmptyString => None
      | String b s' => if Ascii.eqb a b then strip_prefix p' s' else None
      end
  end.

Definition startswith (s p : string) : bool :=
  match strip_prefix p s with Some _ => true | None => false end.

(** [s.endswith(p)]: [s] is [p], or its tail ends with [p]. *)
Fixpoint endswith (s p : string) : bool :=
  String.eqb s p ||
  match s with
  | EmptyString => false
  | String _ s' => endswith s' p
  end.

(** [s.split(sep)] for a one-character separator. *)
Fixpoint split (sep : ascii) (s : string) : list string :=
  match s with
  | EmptyString => [EmptyString]
  | String c s' =>
      if Ascii.eqb c sep then EmptyString :: split sep s'
      else match split sep s' with
           | w :: ws => String c w :: ws
           | [] => [String c EmptyString]
           end
  end.

(** [sep.join(l)]. *)
Definition join (sep : string) (l : list string) : string := String.concat sep l.

Fixpoint contains (c : ascii) (s : string) : bool :=
  match s with
  | EmptyString => false
  | String a s' => Ascii.eqb a c || contains c s'
  end.


End Str.

(** ** [os.path] (posixpath) *)

Module os_path.

(** [os.path.join(a, b)]. *)
Definition join (a b : string) : string :=
  if Str.startswith b "/" then b
  else if String.eqb a "" || Str.endswith a "/" then a +:+ b
  else a +:+ "/" +:+ b.

End os_path.

(** A plain file name: not empty and without a path separator. *)
Definition plain_name (n : string) : bool :=
  negb (String.eqb n "") && negb (Str.contains "/"%char n).

(** [in_dir d p]: [p] names a direct child of the directory [d]. *)
Definition in_dir (d p : string) : bool :=
  match Str.strip_prefix (d +:+ "/") p with
  | Some n => plain_name n
  | None => false
  end.

(** ** Exceptions and controller states *)

(** [PyException] stands for any exception that is neither of the two classes
    the module declares; it carries [unicode(e)]. *)
Inductive exn :=
| UpdateCancelled
| UpdateError (msg : string)
| PyException (msg : string).

Inductive ustate :=
| ERROR | CHECKING | UPDATE_NOT_AVAILABLE | UPDATE_AVAILABLE | PREPARING
| DOWNLOADING | UNPACKING | FINISHING | DONE | CANCELLED.

#[global] Instance ustate_eq_dec : EqDecision ustate.
Proof. solve_decision. Defined.

(** ** Manifests and snapshots

    What [json.load] returns is read through the manifest schema: a dict from
    names to values, where a value is a module entry (a dict whose fields may
    be absent, so that a missing key raises as in the source) or a scalar.
    Fields of another JSON type than the schema's are outside the model. *)

Module Entry.
Record t := mk {
  version : option string;
  files : option (list string);
  directories : option (list string);
  xbit : option (list string);
  digest : option string;
  url : option string
}.
End Entry.

Inductive jvalue :=
| JEntry (e : Entry.t)
| JStr (s : string)
| JInt (z : Z)
| JNull.

Abbreviation document := (gmap string jvalue).

(** ** Tar archives *)

(** [OTHERTYPE] covers fifos and devices and carries the type flag. *)
Inductive tartype := REGTYPE | DIRTYPE | OTHERTYPE (flag : string).

Module TarInfo.
Record t := mk {
  name : string;
  size : nat;
  type : tartype;
  uid : Z;
  gid : Z;
  mtime : Z;
  uname : string;
  gname : string;
  mode : Z;
  data : string
}.
Definition isreg (i : t) : bool := match type i with REGTYPE => true | _ => false end.
Definition isdir (i : t) : bool := match type i with DIRTYPE => true | _ => false end.
(** The type flag as [format] prints it. *)
Definition flag (i : t) : string :=
  match type i with REGTYPE => "0" | DIRTYPE => "5" | OTHERTYPE c => c end.
End TarInfo.

(** ** The filesystem

    A flat map from path strings, as the code computes them, to nodes.
    Regular files and directories only: links, devices and fifos are not
    modelled.  Parent directories are implicit, and a directory is empty when
    no path of the map lies below it. *)

Inductive node :=
| File (data : string) (mode : Z)
| Dir.

Abbreviation fsmap := (gmap string node).

Inductive fsop :=
| OpRead (p : string)
| OpWrite (p : string)
| OpUnlink (p : string)
| OpRename (src dst : string)
| OpMkdir (p : string)
| OpRmdir (p : string)
| OpChmod (p : string).

(** ** The environment

    The libraries the module imports and the world outside the worker thread.
    Python floats are modelled by exact rationals. *)

(** One run of the delta tool: the lines it prints when left alone, the lines
    still read from its pipe once it has been killed (from those not yet
    read), and the contents it leaves at its [-o] and [-k] paths when it
    exits ([None]: path untouched); the flag tells whether it was killed. *)
Record ToolRun := {
  stdout : list string;
  killed_stdout : list string → list string;
  output : bool → option string;
  control : bool → option string
}.

Record Env := {
  (* json *)
  json_load : string → option document;
  json_dump : document → string;
  (* tarfile *)
  tar_encode : list TarInfo.t → string;
  tar_decode : string → option (list TarInfo.t);
  (* hashlib.sha256 *)
  sha256 : Type;
  sha256_new : sha256;
  sha256_update : sha256 → string → sha256;
  sha256_hexdigest : sha256 → string;
  (* urlparse.urljoin, renpy.exports.fsencode, float *)
  urljoin : string → string → string;
  fsencode : string → string;
  float : string → option Q;
  (* urllib.urlretrieve: the body served at a URL *)
  urlretrieve : string → option string;
  (* subprocess.Popen of ./zsync; [None]: the process cannot be started *)
  zsync : list string → fsmap → option ToolRun;
  (* whether the operating system lets an operation through *)
  os_permits : fsmap → fsop → bool;
  umask : Z;
  (* the user interface: has cancel() been called when the worker reads
     [self.cancelled] for the n-th time *)
  cancel_clicked : nat → bool
}.

(** ** The updater object and its world *)

Inductive logrec :=
| LogLine (l : string)
| LogTraceback (e : exn).

Record World := {
  (* fields of the Updater object *)
  state : ustate;
  message : option string;
  progress : option Q;
  can_cancel : bool;
  can_proceed : bool;
  cancelled : bool;
  proceeded : bool;
  url : string;
  force : bool;
  base : string;
  updatedir : string;
  app : option string;
  modules : list string;
  moves : list string;
  log : option (list logrec);
  current_state : document;
  updates : document;
  new_state : document;
  (* the filesystem *)
  fs : fsmap;
  (* ghost: reads of self.cancelled so far, the (state, progress) pairs
     the interface could observe, the archives unpack iterated over *)
  polls : nat;
  trace : list (ustate * option Q);
  unpacked : list (string * list TarInfo.t)
}.

Definition set_state (v : ustate) (w : World) : World :=
  {| state := v; message := message w; progress := progress w;
     can_cancel := can_cancel w; can_proceed := can_proceed w; cancelled := cancelled w;
     proceeded := proceeded w; url := url w; force := force w; base := base w;
     updatedir := updatedir w; app := app w; modules := modules w; moves := moves w;
     log := log w; current_state := current_state w; updates := updates w;
     new_state := new_state w; fs := fs w; polls := polls w; trace := trace w;
     unpacked := unpacked w |}.

Definition set_message (v : option string) (w : World) : World :=
  {| state := state w; message := v; progress := progress w; can_cancel := can_cancel w;
     can_proceed := can_proceed w; cancelled := cancelled w; proceeded := proceeded w;
     url := url w; force := force w; base := base w; updatedir := updatedir w;
     app := app w; modules := modules w; moves := moves w; log := log w;
     current_state := current_state w; updates := updates w; new_state := new_state w;
     fs := fs w; polls := polls w; trace := trace w; unpacked := unpacked w |}.

Definition set_progress (v : option Q) (w : World) : World :=
  {| state := state w; message := message w; progress := v; can_cancel := can_cancel w;
     can_proceed := can_proceed w; cancelled := cancelled w; proceeded := proceeded w;
     url := url w; force := force w; base := base w; updatedir := updatedir w;
     app := app w; modules := modules w; moves := moves w; log := log w;
     current_state := current_state w; updates := updates w; new_state := new_state w;
     fs := fs w; polls := polls w; trace := trace w; unpacked := unpacked w |}.

Definition set_can_cancel (v : bool) (w : World) : World :=
  {| state := state w; message := message w; progress := progress w; can_cancel := v;
     can_proceed := can_proceed w; cancelled := cancelled w; proceeded := proceeded w;
     url := url w; force := force w; base := base w; updatedir := updatedir w;
     app := app w; modules := modules w; moves := moves w; log := log w;
     current_state := current_state w; updates := updates w; new_state := new_state w;
     fs := fs w; polls := polls w; trace := trace w; unpacked := unpacked w |}.

Definition set_can_proceed (v : bool) (w : World) : World :=
  {| state := state w; message := message w; progress := progress w;
     can_cancel := can_cancel w; can_proceed := v; cancelled := cancelled w;
     proceeded := proceeded w; url := url w; force := force w; base := base w;
     updatedir := updatedir w; app := app w; modules := modules w; moves := moves w;
     log := log w; current_state := current_state w; updates := updates w;
     new_state := new_state w; fs := fs w; polls := polls w; trace := trace w;
     unpacked := unpacked w |}.

Definition set_cancelled (v : bool) (w : World) : World :=
  {| state := state w; message := message w; progress := progress w;
     can_cancel := can_cancel w; can_proceed := can_proceed w; cancelled := v;
     proceeded := proceeded w; url := url w; force := force w; base := base w;
     updatedir := updatedir w; app := app w; modules := modules w; moves := moves w;
     log := log w; current_state := current_state w; updates := updates w;
     new_state := new_state w; fs := fs w; polls := polls w; trace := trace w;
     unpacked := unpacked w |}.

Definition set_proceeded (v : bool) (w : World) : World :=
  {| state := state w; message := message w; progress := progress w;
     can_cancel := can_cancel w; can_proceed := can_proceed w; cancelled := cancelled w;
     proceeded := v; url := url w; force := force w; base := base w;
     updatedir := updatedir w; app := app w; modules := modules w; moves := moves w;
     log := log w; current_state := current_state w; updates := updates w;
     new_state := new_state w; fs := fs w; polls := polls w; trace := trace w;
     unpacked := unpacked w |}.

Definition set_modules (v : list string) (w : World) : World :=
  {| state := state w; message := message w; progress := progress w;
     can_cancel := can_cancel w; can_proceed := can_proceed w; cancelled := cancelled w;
     proceeded := proceeded w; url := url w; force := force w; base := base w;
     updatedir := updatedir w; app := app w; modules := v; moves := moves w;
     log := log w; current_state := current_state w; updates := updates w;
     new_state := new_state w; fs := fs w; polls := polls w; trace := trace w;
     unpacked := unpacked w |}.

Definition set_moves (v : list string) (w : World) : World :=
  {| state := state w; message := message w; progress := progress w;
     can_cancel := can_cancel w; can_proceed := can_proceed w; cancelled := cancelled w;
     proceeded := proceeded w; url := url w; force := force w; base := base w;
     updatedir := updatedir w; app := app w; modules := modules w; moves := v;
     log := log w; current_state := current_state w; updates := updates w;
     new_state := new_state w; fs := fs w; polls := polls w; trace := trace w;
     unpacked := unpacked w |}.

Definition set_log (v : option (list logrec)) (w : World) : World :=
  {| state := state w; message := message w; progress := progress w;
     can_cancel := can_cancel w; can_proceed := can_proceed w; cancelled := cancelled w;
     proceeded := proceeded w; url := url w; force := force w; base := base w;
     updatedir := updatedir w; app := app w; modules := modules w; moves := moves w;
     log := v; current_state := current_state w; updates := updates w;
     new_state := new_state w; fs := fs w; polls := polls w; trace := trace w;
     unpacked := unpacked w |}.

Definition set_current_state (v : document) (w : World) : World :=
  {| state := state w; message := message w; progress := progress w;
     can_cancel := can_cancel w; can_proceed := can_proceed w; cancelled := cancelled w;
     proceeded := proceeded w; url := url w; force := force w; base := base w;
     updatedir := updatedir w; app := app w; modules := modules w; moves := moves w;
     log := log w; current_state := v; updates := updates w; new_state := new_state w;
     fs := fs w; polls := polls w; trace := trace w; unpacked := unpacked w |}.

Definition set_updates (v : document) (w : World) : World :=
  {| state := state w; message := message w; progress := progress w;
     can_cancel := can_cancel w; can_proceed := can_proceed w; cancelled := cancelled w;
     proceeded := proceeded w; url := url w; force := force w; base := base w;
     updatedir := updatedir w; app := app w; modules := modules w; moves := moves w;
     log := log w; current_state := current_state w; updates := v;
     new_state := new_state w; fs := fs w; polls := polls w; trace := trace w;
     unpacked := unpacked w |}.

Definition set_new_state (v : document) (w : World) : World :=
  {| state := state w; message := message w; progress := progress w;
     can_cancel := can_cancel w; can_proceed := can_proceed w; cancelled := cancelled w;
     proceeded := proceeded w; url := url w; force := force w; base := base w;
     updatedir := updatedir w; app := app w; modules := modules w; moves := moves w;
     log := log w; current_state := current_state w; updates := updates w;
     new_state := v; fs := fs w; polls := polls w; trace := trace w;
     unpacked := unpacked w |}.

Definition set_fs (v : fsmap) (w : World) : World :=
  {| state := state w; message := message w; progress := progress w;
     can_cancel := can_cancel w; can_proceed := can_proceed w; cancelled := cancelled w;
     proceeded := proceeded w; url := url w; force := force w; base := base w;
     updatedir := updatedir w; app := app w; modules := modules w; moves := moves w;
     log := log w; current_state := current_state w; updates := updates w;
     new_state := new_state w; fs := v; polls := polls w; trace := trace w;
     unpacked := unpacked w |}.

Definition set_polls (v : nat) (w : World) : World :=
  {| state := state w; message := message w; progress := progress w;
     can_cancel := can_cancel w; can_proceed := can_proceed w; cancelled := cancelled w;
     proceeded := proceeded w; url := url w; force := force w; base := base w;
     updatedir := updatedir w; app := app w; modules := modules w; moves := moves w;
     log := log w; current_state := current_state w; updates := updates w;
     new_state := new_state w; fs := fs w; polls := v; trace := trace w;
     unpacked := unpacked w |}.

Definition set_trace (v : list (ustate * option Q)) (w : World) : World :=
  {| state := state w; message := message w; progress := progress w;
     can_cancel := can_cancel w; can_proceed := can_proceed w; cancelled := cancelled w;
     proceeded := proceeded w; url := url w; force := force w; base := base w;
     updatedir := updatedir w; app := app w; modules := modules w; moves := moves w;
     log := log w; current_state := current_state w; updates := updates w;
     new_state := new_state w; fs := fs w; polls := polls w; trace := v;
     unpacked := unpacked w |}.

Definition set_unpacked (v : list (string * list TarInfo.t)) (w : World) : World :=
  {| state := state w; message := message w; progress := progress w;
     can_cancel := can_cancel w; can_proceed := can_proceed w; cancelled := cancelled w;
     proceeded := proceeded w; url := url w; force := force w; base := base w;
     updatedir := updatedir w; app := app w; modules := modules w; moves := moves w;
     log := log w; current_state := current_state w; updates := updates w;
     new_state := new_state w; fs := fs w; polls := polls w; trace := trace w;
     unpacked := v |}.

(** ** The monad of the worker thread

    A computation runs on a world and returns normally, raises, or reaches
    [exec] on source text shipped by the server: from there on the behaviour
    is whatever that text does, and the model stops with [Exec]. *)

Inductive Res (A : Type) : Type :=
| Ok (a : A) (w : World)
| Raise (e : exn) (w : World)
| Exec (code : string) (w : World).
Arguments Ok {A} a w.
Arguments Raise {A} e w.
Arguments Exec {A} code w.

Definition M (A : Type) : Type := World → Res A.

#[global] Instance M_ret : MRet M := λ A a w, Ok a w.
#[global] Instance M_bind : MBind M := λ A B f m w,
  match m w with
  | Ok a w' => f a w'
  | Raise e w' => Raise e w'
  | Exec c w' => Exec c w'
  end.

Definition get : M World := λ w, Ok w w.
Definition modify (f : World → World) : M unit := λ w, Ok tt (f w).
Definition raise {A} (e : exn) : M A := λ w, Raise e w.
Definition exec (code : string) : M unit := λ w, Exec code w.

(** [try: m except: pass] *)
Definition try_pass (m : M unit) : M unit := λ w,
  match m w with
  | Raise _ w' => Ok tt w'
  | r => r
  end.

(** [try: m except Exception as e: h e] *)
Definition try_except (m : M unit) (h : exn → M unit) : M unit := λ w,
  match m w with
  | Raise e w' => h e w'
  | r => r
  end.

(** [for x in l: f x] *)
Fixpoint for_each {A} (f : A → M unit) (l : list A) : M unit :=
  match l with
  | [] => mret tt
  | x :: l' => f x;; for_each f l'
  end.

(** A [for] loop that threads a local variable. *)
Fixpoint for_fold {A S} (f : S → A → M S) (l : list A) (s : S) : M S :=
  match l with
  | [] => mret s
  | x :: l' => s' ← f s x; for_fold f l' s'
  end.

(** [enumerate(l)] *)
Fixpoint enumerate_from {A} (i : nat) (l : list A) : list (nat * A) :=
  match l with
  | [] => []
  | x :: l' => (i, x) :: enumerate_from (S i) l'
  end.
Definition enumerate {A} (l : list A) : list (nat * A) := enumerate_from 0 l.

(** [d[key]] on a dict read through the schema. *)
Definition getitem {A} (o : option A) (key : string) : M A :=
  match o with
  | Some x => mret x
  | None => raise (PyException ("KeyError: " +:+ key))
  end.

(** [d[name]] followed by a subscript: the value has to be a dict. *)
Definition as_entry (o : option jvalue) (name : string) : M Entry.t :=
  match o with
  | Some (JEntry e) => mret e
  | Some _ => raise (PyException "TypeError")
  | None => raise (PyException ("KeyError: " +:+ name))
  end.

(** Assignments to the two fields the interface polls are recorded. *)
Definition assign_state (s : ustate) : M unit :=
  modify (λ w, set_trace (trace w ++ [(s, progress w)]) (set_state s w)).
Definition assign_progress (p : option Q) : M unit :=
  modify (λ w, set_trace (trace w ++ [(state w, p)]) (set_progress p w)).

(** [1.0 * i / n] *)
Definition fraction (i n : nat) : Q :=
  (1 * inject_Z (Z.of_nat i) / inject_Z (Z.of_nat n))%Q.

(** ** Filesystem operations *)

Section Filesystem.
Context (E : Env).

(** The mode of a file the process creates: [0666 & ~umask]. *)
Definition create_mode : Z := Z.land 0x1b6 (Z.lnot (umask E)).

(** [os.path.exists] *)
Definition path_exists (f : fsmap) (p : string) : bool :=
  match f !! p with Some _ => true | None => false end.

(** [open(p, "r").read()] *)
Definition read_file (f : fsmap) (p : string) : option string :=
  if os_permits E f (OpRead p) then
    match f !! p with
    | Some (File d _) => Some d
    | _ => None
    end
  else None.

(** [open(p, "w")], writing [d], closing. *)
Definition write_file (p d : string) (f : fsmap) : option fsmap :=
  if os_permits E f (OpWrite p) then
    match f !! p with
    | Some (File _ m) => Some (<[p := File d m]> f)
    | Some Dir => None
    | None => Some (<[p := File d create_mode]> f)
    end
  else None.

(** [os.unlink] *)
Definition unlink (p : string) (f : fsmap) : option fsmap :=
  if os_permits E f (OpUnlink p) then
    match f !! p with
    | Some (File _ _) => Some (delete p f)
    | _ => None
    end
  else None.

(** [os.rename] *)
Definition rename (src dst : string) (f : fsmap) : option fsmap :=
  if os_permits E f (OpRename src dst) then
    match f !! src, f !! dst with
    | None, _ => None
    | Some Dir, Some _ => None
    | Some _, Some Dir => None
    | Some n, _ => Some (<[dst := n]> (delete src f))
    end
  else None.

(** [os.makedirs]: only the directory named is tracked. *)
Definition makedirs (p : string) (f : fsmap) : option fsmap :=
  if os_permits E f (OpMkdir p) then
    match f !! p with
    | None => Some (<[p := Dir]> f)
    | Some _ => None
    end
  else None.

Definition has_children (f : fsmap) (p : string) : bool :=
  bool_decide (Exists (λ q, Str.startswith q (p +:+ "/") = true) (map_to_list f).*1).

(** [os.rmdir] *)
Definition rmdir (p : string) (f : fsmap) : option fsmap :=
  if os_permits E f (OpRmdir p) then
    match f !! p with
    | Some Dir => if has_children f p then None else Some (delete p f)
    | _ => None
    end
  else None.

(** [os.chmod] *)
Definition chmod (p : string) (m : Z) (f : fsmap) : option fsmap :=
  if os_permits E f (OpChmod p) then
    match f !! p with
    | Some (File d _) => Some (<[p := File d m]> f)
    | Some Dir => Some f
    | None => None
    end
  else None.

(** An operation run by the worker; a refusal raises. *)
Definition fs_do (op : fsmap → option fsmap) (err : string) : M unit := λ w,
  match op (fs w) with
  | Some f => Ok tt (set_fs f w)
  | None => Raise (PyException err) w
  end.

(** [tarfile.TarFile.gettarinfo(path, name)] on an existing path; the owner
    and the time the stat call reports are left out, [prepare] overwrites
    them. *)
Definition gettarinfo (f : fsmap) (p name : string) : TarInfo.t :=
  match f !! p with
  | Some (File d m) => TarInfo.mk name (String.length d) REGTYPE 0 0 0 "" "" m d
  | _ => TarInfo.mk name 0 DIRTYPE 0 0 0 "" "" 0x1ff ""
  end.

(** [tarfile.TarFile.extractfile]: a file object for regular members,
    [None] for directories, devices and fifos. *)
Definition extractfile (info : TarInfo.t) : option string :=
  if TarInfo.isreg info then Some (TarInfo.data info) else None.

End Filesystem.

(** ** The methods of [Updater] *)

Section Updater.
Context (E : Env).

(** A read of [self.cancelled].  The flag is set by [cancel()] from the
    interface thread and never reset; every read happens while
    [can_cancel] is true. *)
Definition poll_cancelled : M bool := λ w,
  let c := cancelled w || cancel_clicked E (polls w) in
  Ok c (set_polls (S (polls w)) (set_cancelled c w)).

Definition log_write (r : logrec) : M unit := λ w,
  match log w with
  | Some l => Ok tt (set_log (Some (l ++ [r])) w)
  | None => Raise (PyException "AttributeError") w
  end.

Definition log_flush : M unit := λ w,
  match log w with
  | Some _ => Ok tt w
  | None => Raise (PyException "AttributeError") w
  end.

(** [Updater.path] *)
Definition path (w : World) (name : string) : string :=
  match app w with
  | Some a =>
      let p := Str.split "/" name in
      if Str.endswith (hd "" p) ".app" then os_path.join a (Str.join "/" (tl p))
      else os_path.join (base w) name
  | None => os_path.join (base w) name
  end.

(** [Updater.load_state] *)
Definition load_state : M unit :=
  w ← get;
  let fn := os_path.join (updatedir w) "current.json" in
  if negb (path_exists (fs w) fn) then
    raise (UpdateError "Either this project does not support updating, or the update status file was deleted.")
  else
    match read_file E (fs w) fn with
    | None => raise (PyException "IOError")
    | Some f =>
        match json_load E f with
        | None => raise (PyException "ValueError")
        | Some d => modify (set_current_state d)
        end
    end.

(** [Updater.test_write] *)
Definition test_write : M unit :=
  w ← get;
  let fn := os_path.join (updatedir w) "test.txt" in
  try_except
    (fs_do (write_file E fn "Hello, World.") "IOError";;
     fs_do (unlink E fn) "OSError")
    (λ _, raise (UpdateError "This account does not have permission to perform an update."));;
  w ← get;
  match log w with
  | None => raise (UpdateError "This account does not have permission to write the update log.")
  | Some _ => mret tt
  end.

(** [Updater.check_updates] *)
Definition check_updates : M unit :=
  w ← get;
  let fn := os_path.join (updatedir w) "updates.json" in
  match urlretrieve E (url w) with
  | None => raise (PyException "IOError")
  | Some body =>
      fs_do (write_file E fn body) "IOError";;
      w ← get;
      match read_file E (fs w) fn with
      | None => raise (PyException "IOError")
      | Some f =>
          match json_load E f with
          | None => raise (PyException "ValueError")
          | Some d =>
              modify (set_updates d);;
              match d !! "monkeypatch" with
              | None => mret tt
              | Some (JStr code) => exec code
              | Some _ => raise (PyException "TypeError: exec: arg 1 must be a string, file, or code object")
              end
          end
      end
  end.

(** The body of the loop of [check_versions]. *)
Definition check_versions_item (item : string * jvalue) : M unit :=
  let '(name, data) := item in
  w ← get;
  match updates w !! name with
  | None => mret tt
  | Some u =>
      d ← as_entry (Some data) name;
      v ← getitem (Entry.version d) "version";
      u ← as_entry (Some u) name;
      v' ← getitem (Entry.version u) "version";
      if String.eqb v v' && negb (force w) then mret tt
      else modify (λ w, set_modules (modules w ++ [name]) w)
  end.

(** [Updater.check_versions]; [iteritems] enumerates the dict in the order
    of [map_to_list]. *)
Definition check_versions : M unit :=
  modify (set_modules []);;
  w ← get;
  for_each check_versions_item (map_to_list (current_state w)).

(** [Updater.update_filename] *)
Definition update_filename (w : World) (module : string) (new : bool) : string :=
  let rv := os_path.join (updatedir w) (module +:+ ".update") in
  if new then rv +:+ ".new" else rv.

(** The metadata [prepare] gives every record. *)
Definition canonical (xbit directory : bool) (info : TarInfo.t) : TarInfo.t :=
  TarInfo.mk (TarInfo.name info) (TarInfo.size info) (TarInfo.type info)
    1000 1000 0 "renpy" "renpy"
    (if xbit || directory then 0x1ff else 0x1b6)
    (TarInfo.data info).

(** One iteration of the loop of [prepare]; [tf] holds the records added to
    the archive so far. *)
Definition prepare_entry (xbits directories : gset string) (total : nat)
    (tf : list TarInfo.t) (item : nat * string) : M (list TarInfo.t) :=
  let '(i, name) := item in
  c ← poll_cancelled;
  if c : bool then raise UpdateCancelled else
  assign_progress (Some (fraction i total));;
  w ← get;
  let directory := bool_decide (name ∈ directories) in
  let xbit := bool_decide (name ∈ xbits) in
  let path := path w name in
  if directory then
    mret (tf ++ [canonical xbit directory (TarInfo.mk name 0 DIRTYPE 0 0 0 "" "" 0x1a4 "")])
  else if negb (path_exists (fs w) path) then mret tf
  else
    let info := gettarinfo (fs w) path name in
    if negb (TarInfo.isreg info) then mret tf
    else
      match read_file E (fs w) path with
      | None => raise (PyException "IOError")
      | Some _ => mret (tf ++ [canonical xbit directory info])
      end.

(** [Updater.prepare].  The archive under construction is empty on disk
    until [tf.close()]. *)
Definition prepare (module : string) : M unit :=
  w ← get;
  state ← as_entry (current_state w !! module) module;
  xb ← getitem (Entry.xbit state) "xbit";
  ds ← getitem (Entry.directories state) "directories";
  fl ← getitem (Entry.files state) "files";
  let xbits : gset string := list_to_set xb in
  let directories : gset string := {["update"]} ∪ list_to_set ds in
  let all := merge_sort String.le (fl ++ ds) ++ ["update"; "update/current.json"] in
  let fn := update_filename w module false in
  fs_do (write_file E fn "") "IOError";;
  tf ← for_fold (prepare_entry xbits directories (length all)) (enumerate all) [];
  fs_do (write_file E fn (tar_encode E tf)) "IOError".

(** The command line of the delta tool, before [fsencode]. *)
Definition zsync_cmd (w : World) (module target : string) : list string :=
  ["./zsync"; "-o"; update_filename w module true;
   "-k"; os_path.join (updatedir w) (module +:+ ".zsync")]
  ++ flat_map (λ i : string, ["-i"; update_filename w module false]) (modules w)
  ++ [urljoin E (url w) target].

(** The body of the read loop of [download] from [self.log.write(l)] on;
    returns the new [start_progress]. *)
Definition progress_line (l : string) (start_progress : option Q) : M (option Q) :=
  log_write (LogLine l);;
  let endprogress : M (option Q) :=
    if Str.startswith l "ENDPROGRESS" then assign_progress None;; mret None
    else mret start_progress in
  match Str.strip_prefix "PROGRESS " l with
  | Some raw =>
      match float E raw with
      | None => raise (PyException "ValueError")
      | Some x =>
          let raw_progress := (x / 100)%Q in
          if Qeq_bool raw_progress 1 then assign_progress (Some 1%Q);; mret start_progress
          else
            match start_progress with
            | None => assign_progress (Some 0%Q);; mret (Some raw_progress)
            | Some start =>
                if Qeq_bool (1 - start) 0 then raise (PyException "ZeroDivisionError")
                else
                  assign_progress (Some ((raw_progress - start) / (1 - start))%Q);;
                  endprogress
            end
      end
  | None => endprogress
  end.

(** The read loop once the process has been killed: [lines] is what the
    pipe still delivers. *)
Fixpoint drain (lines : list string) (start_progress : option Q) : M unit :=
  match lines with
  | [] => mret tt
  | l :: rest =>
      start_progress ← progress_line l start_progress;
      poll_cancelled;;
      drain rest start_progress
  end.

(** The read loop of [download]; returns whether the process was killed. *)
Fixpoint read_lines (p : ToolRun) (lines : list string) (start_progress : option Q)
    : M bool :=
  c ← poll_cancelled;
  if c : bool then drain (killed_stdout p lines) start_progress;; mret true
  else
    match lines with
    | [] => mret false
    | l :: rest =>
        start_progress ← progress_line l start_progress;
        read_lines p rest start_progress
    end.

(** The successive results of [f.read(n)] up to the empty one. *)
Fixpoint read_chunks_go (n : N) (room : N) (cur : string) (s : string) : list string :=
  match s with
  | EmptyString => if String.eqb cur "" then [] else [String.rev cur]
  | String c s' =>
      if (room =? 1)%N then String.rev (String c cur) :: read_chunks_go n n "" s'
      else read_chunks_go n (N.pred room) (String c cur) s'
  end.
Definition read_chunks (n : N) (s : string) : list string := read_chunks_go n n "" s.

(** [hashlib.sha256()] fed with the file in chunks of 1 MiB. *)
Definition sha256_file (content : string) : string :=
  sha256_hexdigest E
    (fold_left (sha256_update E) (read_chunks (1024 * 1024) content) (sha256_new E)).

(** The part of [download] after [p.wait()]. *)
Definition verify_download (module : string) : M unit :=
  c ← poll_cancelled;
  if c : bool then raise UpdateCancelled else
  w ← get;
  let new_fn := update_filename w module true in
  if negb (path_exists (fs w) new_fn) then
    raise (UpdateError "The update file was not downloaded.")
  else
    match read_file E (fs w) new_fn with
    | None => raise (PyException "IOError")
    | Some content =>
        let digest := sha256_file content in
        u ← as_entry (updates w !! module) module;
        d ← getitem (Entry.digest u) "digest";
        if negb (String.eqb digest d) then
          raise (UpdateError "The update file does not have the correct digest - it may have been corrupted.")
        else
          c ← poll_cancelled;
          if c : bool then raise UpdateCancelled else mret tt
    end.

(** What the tool leaves on disk when it exits. *)
Definition tool_exit (p : ToolRun) (killed : bool) (new_fn zs : string) (f : fsmap) : fsmap :=
  let f := match output p killed with
           | Some c => <[new_fn := File c (create_mode E)]> f
           | None => f
           end in
  match control p killed with
  | Some c => <[zs := File c (create_mode E)]> f
  | None => f
  end.

(** [Updater.download] *)
Definition download (module : string) : M unit :=
  w ← get;
  let new_fn := update_filename w module true in
  let zs := os_path.join (updatedir w) (module +:+ ".zsync") in
  u ← as_entry (updates w !! module) module;
  target ← getitem (Entry.url u) "url";
  let cmd := fsencode E <$> zsync_cmd w module target in
  log_flush;;
  match zsync E cmd (fs w) with
  | None => raise (PyException "OSError")
  | Some p =>
      killed ← read_lines p (stdout p) None;
      modify (λ w, set_fs (tool_exit p killed new_fn zs (fs w)) w);;
      verify_download module
  end.

(** One iteration of the second loop of [unpack]. *)
Definition unpack_entry (module : string) (tf_len : nat) (item : nat * TarInfo.t)
    : M unit :=
  let '(i, info) := item in
  assign_progress (Some (fraction i tf_len));;
  if String.eqb (TarInfo.name info) "update" then mret tt
  else if String.eqb (TarInfo.name info) "update/current.json" then
    match extractfile info with
    | None => raise (PyException "AttributeError")
    | Some tff =>
        match json_load E tff with
        | None => raise (PyException "ValueError")
        | Some state =>
            v ← getitem (state !! module) module;
            modify (λ w, set_new_state (<[module := v]> (new_state w)) w)
        end
    end
  else
    w ← get;
    let path := path w (TarInfo.name info) in
    if TarInfo.isdir info then try_pass (fs_do (makedirs E path) "OSError")
    else if negb (TarInfo.isreg info) then
      raise (UpdateError ("While unpacking " +:+ TarInfo.name info +:+
                          ", unknown type " +:+ TarInfo.flag info +:+ "."))
    else
      let new_path := path +:+ ".new" in
      fs_do (write_file E new_path (TarInfo.data info)) "IOError";;
      (if Z.eqb (Z.land (TarInfo.mode info) 1) 0 then mret tt
       else try_pass (fs_do (chmod E new_path (Z.land 0x1ff (Z.lnot (umask E)))) "OSError"));;
      modify (λ w, set_moves (moves w ++ [path]) w).

(** [tarfile.open(fn, "r")] and the list of its members. *)
Definition open_tar (fn : string) : M (list TarInfo.t) :=
  w ← get;
  match read_file E (fs w) fn with
  | None => raise (PyException "IOError")
  | Some s =>
      match tar_decode E s with
      | None => raise (PyException "ReadError")
      | Some tf => mret tf
      end
  end.

(** [Updater.unpack].  The members are those of the archive as opened. *)
Definition unpack (module : string) : M unit :=
  w ← get;
  let update_fn := update_filename w module true in
  tf ← open_tar update_fn;
  let tf_len := length tf in
  tf ← open_tar update_fn;
  modify (λ w, set_unpacked (unpacked w ++ [(module, tf)]) w);;
  for_each (unpack_entry module tf_len) (enumerate tf).

(** [Updater.move_files] *)
Definition move_files : M unit :=
  w ← get;
  for_each (λ path : string,
    w ← get;
    (if path_exists (fs w) path then fs_do (unlink E path) "OSError" else mret tt);;
    fs_do (rename E (path +:+ ".new") path) "OSError") (moves w).

(** [flatten_path] of [delete_obsolete] *)
Definition flatten_path (w : World) (d : document)
    (key : Entry.t → option (list string)) (keyname : string) : M (gset string) :=
  for_fold (λ (rv : gset string) (item : string * jvalue),
    i ← as_entry (Some item.2) item.1;
    l ← getitem (key i) keyname;
    mret (rv ∪ list_to_set (path w <$> l))) (map_to_list d) ∅.

(** [Updater.delete_obsolete] *)
Definition delete_obsolete : M unit :=
  w ← get;
  old_files ← flatten_path w (current_state w) Entry.files "files";
  old_directories ← flatten_path w (current_state w) Entry.directories "directories";
  new_files ← flatten_path w (new_state w) Entry.files "files";
  new_directories ← flatten_path w (new_state w) Entry.directories "directories";
  let old_files := reverse (merge_sort String.le (elements (old_files ∖ new_files))) in
  let old_directories :=
    reverse (merge_sort String.le (elements (old_directories ∖ new_directories))) in
  for_each (λ i, try_pass (fs_do (unlink E i) "OSError")) old_files;;
  for_each (λ i, try_pass (fs_do (rmdir E i) "OSError")) old_directories.

(** [Updater.save_state] *)
Definition save_state : M unit :=
  w ← get;
  let fn := os_path.join (updatedir w) "current.json" in
  fs_do (write_file E fn (json_dump E (new_state w))) "IOError".

(** [Updater.clean] *)
Definition clean (fn : string) : M unit :=
  w ← get;
  let fn := os_path.join (updatedir w) fn in
  if path_exists (fs w) fn then try_pass (fs_do (unlink E fn) "OSError")
  else mret tt.

(** [Updater.clean_old] *)
Definition clean_old : M unit :=
  w ← get;
  for_each (λ i, clean (i +:+ ".update")) (modules w).

(** [Updater.clean_new] *)
Definition clean_new : M unit :=
  w ← get;
  for_each (λ i, clean (i +:+ ".update.new");; clean (i +:+ ".zsync")) (modules w).

(** The wait in [UPDATE_AVAILABLE]: the interface is taken to answer, by
    [cancel()] or by [proceed()]. *)
Definition wait_for_interface : M unit :=
  c ← poll_cancelled;
  if c : bool then mret tt else modify (set_proceeded true).

(** [update], from [self.progress = 0.0] before PREPARING to the
    [clean_old()] after the downloads. *)
Definition fetch_stages : M unit :=
  assign_progress (Some 0%Q);;
  assign_state PREPARING;;
  w ← get;
  for_each prepare (modules w);;
  assign_progress (Some 0%Q);;
  assign_state DOWNLOADING;;
  for_each download (modules w);;
  clean_old.

(** [update], from [self.can_cancel = False] to the end. *)
Definition install_stages : M unit :=
  modify (set_can_cancel false);;
  assign_progress (Some 0%Q);;
  assign_state UNPACKING;;
  w ← get;
  for_each unpack (modules w);;
  assign_progress None;;
  assign_state FINISHING;;
  move_files;;
  delete_obsolete;;
  save_state;;
  clean_new;;
  modify (set_message None);;
  assign_progress None;;
  modify (set_can_proceed true);;
  modify (set_can_cancel false);;
  assign_state DONE.

(** [Updater.update] *)
Definition update : M unit :=
  load_state;;
  test_write;;
  check_updates;;
  check_versions;;
  w ← get;
  match modules w with
  | [] =>
      modify (set_can_cancel false);;
      modify (set_can_proceed true);;
      assign_state UPDATE_NOT_AVAILABLE
  | _ =>
      modify (set_can_cancel true);;
      modify (set_can_proceed true);;
      assign_state UPDATE_AVAILABLE;;
      wait_for_interface;;
      c ← poll_cancelled;
      if c : bool then raise UpdateCancelled else
      modify (λ w, set_new_state (current_state w) w);;
      fetch_stages;;
      install_stages
  end.

(** The [except] clauses of [run]. *)
Definition handler (e : exn) : M unit :=
  match e with
  | UpdateCancelled =>
      modify (set_can_cancel true);;
      modify (set_can_proceed false);;
      assign_progress None;;
      modify (set_message None);;
      assign_state CANCELLED
  | UpdateError msg =>
      modify (set_message (Some msg));;
      modify (set_can_cancel true);;
      modify (set_can_proceed false);;
      assign_state ERROR
  | PyException msg =>
      modify (set_message (Some msg));;
      modify (set_can_cancel true);;
      modify (set_can_proceed false);;
      assign_state ERROR;;
      modify (λ w, match log w with
                   | Some l => set_log (Some (l ++ [LogTraceback e])) w
                   | None => w
                   end)
  end.

(** [Updater.run] *)
Definition run : M unit :=
  try_except update handler;;
  clean_old.

(** [Updater.__init__] up to [self.start()]; [base] is absolute. *)
Definition init (url base : string) (force : bool) (f : fsmap) : Res unit :=
  let updatedir := os_path.join base "update" in
  let splitbase := Str.split "/" base in
  let app :=
    match rev splitbase with
    | s1 :: s2 :: s3 :: s4 :: _ =>
        if String.eqb s1 "autorun" && String.eqb s2 "Resources" &&
           String.eqb s3 "Contents" && Str.endswith s4 ".app"
        then Some (Str.join "/" (take (length splitbase - 3) splitbase))
        else None
    | _ => None
    end in
  let '(log, f) :=
    match write_file E (os_path.join updatedir "log.txt") "" f with
    | Some f' => (Some [], f')
    | None => (None, f)
    end in
  let w :=
    {| state := CHECKING; message := None; progress := None;
       can_cancel := true; can_proceed := false; cancelled := false;
       proceeded := false; url := url; force := force; base := base;
       updatedir := updatedir; app := app; modules := []; moves := [];
       log := log; current_state := ∅; updates := ∅; new_state := ∅;
       fs := f; polls := 0; trace := [(CHECKING, None)]; unpacked := [] |} in
  if path_exists f (os_path.join base "run.sh")
  then Raise (PyException "Refusing to update a Ren'Py source checkout.") w
  else Ok tt w.

(** Constructing an [Updater] starts its thread. *)
Definition Updater (url base : string) (force : bool) (f : fsmap) : Res unit :=
  match init url base force f with
  | Ok _ w => run w
  | r => r
  end.

End Updater.

(** ** Scenarios

    Concrete environments and installations on which the model is run. *)

Module Demo.

Definition entry (v : string) (fl ds xb : list string) (dg ul : option string) : jvalue :=
  JEntry (Entry.mk (Some v) (Some fl) (Some ds) (Some xb) dg ul).

(** Installed snapshots. *)
Definition installed : document :=
  {[ "m" := entry "1" ["a.txt"] [] [] None None ]}.
Definition installed2 : document :=
  {[ "a" := entry "1" [] [] [] None None; "b" := entry "1" [] [] [] None None ]}.

(** Server manifests. *)
Definition served : document :=
  {[ "m" := entry "2" ["a.txt"] [] [] (Some "sha256:archive") (Some "m.update") ]}.
Definition served_same : document :=
  {[ "m" := entry "1" ["a.txt"] [] [] (Some "sha256:archive") (Some "m.update") ]}.
Definition served_bare : document :=
  {[ "m" := entry "2" ["a.txt"] [] [] (Some "sha256:bare") (Some "m.update") ]}.
Definition served2 : document :=
  {[ "a" := entry "2" [] [] [] (Some "sha256:archive") (Some "a.update");
     "b" := entry "2" [] [] [] (Some "sha256:archive") (Some "b.update") ]}.

(** The snapshot shipped inside the archive of [m]. *)
Definition archived : document :=
  {[ "m" := entry "2" ["a.txt"] [] [] None None ]}.

Definition member (name : string) (t : tartype) (mode : Z) (data : string) : TarInfo.t :=
  TarInfo.mk name (String.length data) t 1000 1000 0 "renpy" "renpy" mode data.

Definition archive : list TarInfo.t :=
  [ member "a.txt" REGTYPE 0x1b6 "new";
    member "update" DIRTYPE 0x1ff "";
    member "update/current.json" REGTYPE 0x1b6 "archived" ].

(** The same archive without its snapshot. *)
Definition archive_bare : list TarInfo.t :=
  [ member "a.txt" REGTYPE 0x1b6 "new" ].

Definition load (s : string) : option document :=
  if String.eqb s "installed" then Some installed
  else if String.eqb s "installed2" then Some installed2
  else if String.eqb s "served" then Some served
  else if String.eqb s "served_same" then Some served_same
  else if String.eqb s "served_same+patch" then Some (<["monkeypatch" := JInt 0]> served_same)
  else if String.eqb s "served_bare" then Some served_bare
  else if String.eqb s "served2" then Some served2
  else if String.eqb s "archived" then Some archived
  else None.

Definition dump (d : document) : string :=
  String.concat ";"
    ((λ kv : string * jvalue,
        kv.1 +:+ "=" +:+
        match kv.2 with
        | JEntry e => default "" (Entry.version e)
        | _ => "?"
        end) <$> map_to_list d).

Definition untar (s : string) : option (list TarInfo.t) :=
  if String.eqb s "archive" then Some archive
  else if String.eqb s "bare" then Some archive_bare
  else if String.eqb s "empty" then Some []
  else None.

Definition number (s : string) : option Q :=
  if String.eqb s "0" then Some 0%Q
  else if String.eqb s "50" then Some 50%Q
  else if String.eqb s "60" then Some 60%Q
  else if String.eqb s "75" then Some 75%Q
  else if String.eqb s "100" then Some 100%Q
  else None.

(** A tool that prints [lines] and leaves [out] at its output path. *)
Definition tool (lines : list string) (out : option string) : ToolRun :=
  {| stdout := lines; killed_stdout := λ _, [];
     output := λ killed, if killed then None else out;
     control := λ _, Some "control" |}.

(** [body] is what the server sends for the manifest, [clicked] tells when
    the user cancels. *)
Definition env (body : string) (lines : list string) (out : option string)
    (clicked : nat → bool) : Env :=
  {| json_load := load;
     json_dump := dump;
     tar_encode := λ tf, "seed:" +:+ String.concat "," (TarInfo.name <$> tf);
     tar_decode := untar;
     sha256 := string;
     sha256_new := "";
     sha256_update := String.append;
     sha256_hexdigest := λ h, "sha256:" +:+ h;
     urljoin := λ _ u, "http://server/" +:+ u;
     fsencode := λ s, s;
     float := number;
     urlretrieve := λ _, Some body;
     zsync := λ _ _, Some (tool lines out);
     os_permits := λ _ _, true;
     umask := 18;
     cancel_clicked := clicked |}.

Definition never : nat → bool := λ _, false.

(** An installation of [m] in [/game]. *)
Definition disk : fsmap :=
  {[ "/game/update/current.json" := File "installed" 0x1a4;
     "/game/a.txt" := File "old" 0x1a4 ]}.

(** An installation of the empty modules [a] and [b]. *)
Definition disk2 : fsmap :=
  {[ "/game/update/current.json" := File "installed2" 0x1a4 ]}.

Definition url : string := "http://server/updates.json".

Definition progress_lines : list string :=
  ["PROGRESS 50"; "PROGRESS 75"; "PROGRESS 100"; "ENDPROGRESS"; "done"].

(** The world a finished session leaves, if it finishes. *)
Definition final (r : Res unit) : option World :=
  match r with
  | Ok _ w => Some w
  | _ => None
  end.

End Demo.

(** ** Predicates used in the statements *)

(** The version recorded in a manifest value, if it is an entry with one. *)
Definition version_of (v : jvalue) : option string :=
match v with
| JEntry e => Entry.version e
| _ => None
end.

(** The paths that follow a [-i] flag on a command line. *)
Fixpoint seed_args (cmd : list string) : list string :=
match cmd with
| [] => []
| a :: rest =>
    match rest with
    | p :: rest' => if String.eqb a "-i" then p :: seed_args rest' else seed_args rest
    | [] => []
    end
end.

(** The test [check_versions] makes on one item of the installed snapshot. *)
Definition is_stale (upd : document) (force : bool) (item : string * jvalue) : bool :=
match upd !! item.1 with
| None => false
| Some u =>
    match version_of item.2, version_of u with
    | Some v, Some v' => negb (String.eqb v v' && negb force)
    | _, _ => false
    end
end.

(** A world that differs from [w] in its stale set only. *)
Definition same_but_modules (w w' : World) : Prop :=
set_modules (modules w) w' = set_modules (modules w) w.


(** The session's data is left as it was. *)
Definition keeps (w w' : World) : Prop :=
url w' = url w ∧ force w' = force w ∧ base w' = base w ∧
updatedir w' = updatedir w ∧ app w' = app w ∧ modules w' = modules w ∧
current_state w' = current_state w ∧ updates w' = updates w ∧
new_state w' = new_state w ∧ unpacked w' = unpacked w ∧ moves w' = moves w.

(** Two filesystems that agree on every path outside [ps]. *)
Definition only_at (ps : list string) (f f' : fsmap) : Prop :=
∀ q, q ∉ ps → f' !! q = f !! q.

(** The session's data is kept and the filesystem changes at [ps] at most. *)
Definition frame (ps : list string) (w w' : World) : Prop :=
keeps w w' ∧ only_at ps (fs w) (fs w').

(** No regular file at [p]. *)
Definition no_file (f : fsmap) (p : string) : Prop :=
match f !! p with
| Some (File _ _) => False
| _ => True
end.

(** The update directory is the same and nothing changed outside it. *)
Definition confined (w w' : World) : Prop :=
updatedir w' = updatedir w ∧
∀ p, in_dir (updatedir w) p = false → fs w' !! p = fs w !! p.



(** The configuration of the session, its stale set and the two manifests
    are left as they were. *)
Definition session_kept (w w' : World) : Prop :=
url w' = url w ∧ force w' = force w ∧ base w' = base w ∧
updatedir w' = updatedir w ∧ app w' = app w ∧ modules w' = modules w ∧
current_state w' = current_state w ∧ updates w' = updates w.

(** The entry for [module] that an archive member carries: the member is
    named [update/current.json], it is a regular file, its content parses,
    and the parsed snapshot has an entry for [module]. *)
Definition payload_of (E : Env) (module : string) (info : TarInfo.t) : option jvalue :=
if String.eqb (TarInfo.name info) "update/current.json" then
  match extractfile info with
  | Some tff =>
      match json_load E tff with
      | Some state => state !! module
      | None => None
      end
  | None => None
  end
else None.

(** The snapshot once a member has been handled. *)
Definition apply_payload (E : Env) (module : string) (ns : document) (info : TarInfo.t)
  : document :=
match payload_of E module info with
| Some v => <[module := v]> ns
| None => ns
end.

(** The snapshot once the archives of a list of modules have been unpacked. *)
Definition merge_archives (E : Env) (ns : document)
  (archives : list (string * list TarInfo.t)) : document :=
foldl (λ ns a, foldl (apply_payload E a.1) ns a.2) ns archives.

(** What [install_stages] leaves when it returns: the state [DONE], the
    archives it went through, the snapshot merged from them and written. *)
Definition installed (E : Env) (w w' : World) : Prop :=
state w' = DONE ∧ session_kept w w' ∧
∃ archives mode,
  unpacked w' = unpacked w ++ archives ∧ archives.*1 = modules w ∧
  new_state w' = merge_archives E (new_state w) archives ∧
  fs w' !! os_path.join (updatedir w) "current.json" =
    Some (File (json_dump E (new_state w')) mode).



(** The cleanup has run from [w] to [w']: the stale set is the same, files
    were removed only, and, where the system refuses no removal, no module of
    the stale set has a seed archive left. *)
Definition cleaned (E : Env) (w w' : World) : Prop :=
modules w' = modules w ∧ fs w' ⊆ fs w ∧
((∀ f p, os_permits E f (OpUnlink p) = true) →
 ∀ m, m ∈ modules w' → no_file (fs w') (update_filename w' m false)).







(** The observations of a loop that reports [i / n] at its [i]-th iteration,
    from iteration [i] on, [k] iterations long. *)
Definition steps (s : ustate) (n i k : nat) : list (ustate * option Q) :=
(λ j, (s, Some (fraction j n))) <$> seq i k.

(** The environment [E] with a server that sends [body] for the manifest. *)
Definition serving (E : Env) (body : string) : Env :=
{| json_load := json_load E; json_dump := json_dump E;
   tar_encode := tar_encode E; tar_decode := tar_decode E;
   sha256 := sha256 E; sha256_new := sha256_new E;
   sha256_update := sha256_update E; sha256_hexdigest := sha256_hexdigest E;
   urljoin := urljoin E; fsencode := fsencode E; float := float E;
   urlretrieve := λ _, Some body;
   zsync := zsync E; os_permits := os_permits E; umask := umask E;
   cancel_clicked := cancel_clicked E |}.

(** The state a session ends in. *)
Definition final_state (r : Res unit) : ustate :=
match r with
| Ok _ w | Raise _ w | Exec _ w => state w
end.

(** The claim that a [monkeypatch] field is ignored: two manifests that differ
    in that field only lead every session to the same final state. *)
Definition monkeypatch_ignored : Prop :=
∀ E b1 b2 d1 d2 url base force f,
  json_load E b1 = Some d1 → json_load E b2 = Some d2 →
  delete "monkeypatch" d1 = delete "monkeypatch" d2 →
  final_state (Updater (serving E b1) url base force f) =
  final_state (Updater (serving E b2) url base force f).

(** [wp r Q X Z]: the result [r] satisfies [Q] if it is a normal return, [X]
    if it is an exception, [Z] if control was handed to shipped code. *)
Definition wp {A} (r : Res A) (Q : A → World → Prop) (X : exn → World → Prop)
  (Z : World → Prop) : Prop :=
match r with
| Ok a w => Q a w
| Raise e w => X e w
| Exec _ w => Z w
end.


Module Demo2.

(** A world in [/game] with the given disk and stale set. *)
Definition world (f : fsmap) (ms : list string) : World :=
{| state := DOWNLOADING; message := None; progress := Some 0%Q;
   can_cancel := true; can_proceed := true; cancelled := false;
   proceeded := true; url := Demo.url; force := false; base := "/game";
   updatedir := "/game/update"; app := None; modules := ms; moves := [];
   log := Some []; current_state := Demo.installed2; updates := Demo.served2;
   new_state := Demo.installed2; fs := f; polls := 2;
   trace := [(DOWNLOADING, Some 0%Q)]; unpacked := [] |}.

Definition plain_env : Env := Demo.env "served" Demo.progress_lines (Some "archive") Demo.never.




(** The world a result carries. *)
Definition result {A : Type} (r : Res A) : World :=
match r with
| Ok _ w | Raise _ w | Exec _ w => w
end.

(** The world in which the thread of an [Updater] of [/game] starts. *)
Definition started (E : Env) (f : fsmap) : World :=
result (init E Demo.url "/game" false f).


End Demo2.

(** * Properties *)

(** ** Strings and paths *)

Lemma app_cons (a : ascii) (s t : string) : String a s +:+ t = String a (s +:+ t).
Proof. reflexivity. Qed.

Lemma app_empty_l (t : string) : "" +:+ t = t.
Proof. reflexivity. Qed.

Lemma app_assoc_str (a b c : string) : (a +:+ b) +:+ c = a +:+ (b +:+ c).
Proof.
  induction a as [|x a IH]; [done|].
  rewrite !app_cons. by rewrite IH.
Qed.

Lemma app_eq_empty (a b : string) : a +:+ b = "" → a = "" ∧ b = "".
Proof. destruct a; [done|]. rewrite app_cons. discriminate. Qed.














Lemma startswith_app (n s : string) (p : ascii) :
  n ≠ "" → Str.startswith (n +:+ s) (String p "") = Str.startswith n (String p "").
Proof.
  intros Hn. destruct n as [|c n]; [done|].
  rewrite app_cons. unfold Str.startswith. cbn [Str.strip_prefix].
  by destruct (Ascii.eqb p c).
Qed.

Lemma join_app (d n s : string) :
  n ≠ "" → os_path.join d (n +:+ s) = os_path.join d n +:+ s.
Proof.
  intros Hn. unfold os_path.join. rewrite startswith_app by done.
  destruct (Str.startswith n "/"); [done|].
  destruct (String.eqb d "" || Str.endswith d "/"); by rewrite !app_assoc_str.
Qed.

Lemma update_filename_new (w : World) (module : string) :
  update_filename w module true = os_path.join (updatedir w) (module +:+ ".update.new").
Proof.
  unfold update_filename.
  change (module +:+ ".update.new") with (module +:+ (".update" +:+ ".new")).
  rewrite <- app_assoc_str.
  rewrite (join_app _ (module +:+ ".update") ".new"); [done|].
  intros [_ ?]%app_eq_empty. done.
Qed.

(** ** The monad *)

Lemma bind_unfold {A B} (m : M A) (f : A → M B) (w : World) :
  (m ≫= f) w =
  match m w with
  | Ok a w' => f a w'
  | Raise e w' => Raise e w'
  | Exec c w' => Exec c w'
  end.
Proof. reflexivity. Qed.

Lemma wp_bind {A B} (m : M A) (f : A → M B) (w : World) Q X Z :
  wp (m w) (λ a w1, wp (f a w1) Q X Z) X Z → wp ((m ≫= f) w) Q X Z.
Proof. rewrite bind_unfold. by destruct (m w). Qed.

Lemma wp_mono {A} (r : Res A) (Q Q' : A → World → Prop) (X X' : exn → World → Prop)
    (Z Z' : World → Prop) :
  wp r Q X Z →
  (∀ a w, Q a w → Q' a w) → (∀ e w, X e w → X' e w) → (∀ w, Z w → Z' w) →
  wp r Q' X' Z'.
Proof. destruct r; simpl; auto. Qed.


Lemma wp_try_pass (m : M unit) (w : World) Q X Z :
  wp (m w) Q (λ _, Q tt) Z → wp (try_pass m w) Q X Z.
Proof. unfold try_pass. by destruct (m w). Qed.

Lemma wp_try_except (m : M unit) (h : exn → M unit) (w : World) Q X Z :
  wp (m w) Q (λ e w1, wp (h e w1) Q X Z) Z → wp (try_except m h w) Q X Z.
Proof. unfold try_except. by destruct (m w). Qed.





(** Symbolic execution of a computation under [wp]. *)
Ltac wp_case :=
  match goal with
  | |- wp ((if ?b then _ else _) _) _ _ _ => destruct b eqn:?
  | |- wp ((match ?x with _ => _ end) _) _ _ _ => destruct x eqn:?
  | |- wp ((let '(_, _) := ?x in _) _) _ _ _ => destruct x
  | |- wp (if ?b then _ else _) _ _ _ => destruct b eqn:?
  | |- wp (match ?x with _ => _ end) _ _ _ => destruct x eqn:?
  end.

Ltac wp_prim :=
  match goal with
  | |- wp (Ok _ _) _ _ _ => cbn [wp]
  | |- wp (Raise _ _) _ _ _ => cbn [wp]
  | |- wp (Exec _ _) _ _ _ => cbn [wp]
  | |- wp ((_ ≫= _) _) _ _ _ => apply wp_bind
  | |- wp (mret _ _) _ _ _ => cbn [wp mret M_ret]
  | |- wp (get _) _ _ _ => cbn [wp get]
  | |- wp (modify _ _) _ _ _ => cbn [wp modify]
  | |- wp (raise _ _) _ _ _ => cbn [wp raise]
  | |- wp (exec _ _) _ _ _ => cbn [wp exec]
  | |- wp (assign_state _ _) _ _ _ => unfold assign_state; cbn [wp modify]
  | |- wp (assign_progress _ _) _ _ _ => unfold assign_progress; cbn [wp modify]
  | |- wp (poll_cancelled _ _) _ _ _ => unfold poll_cancelled; cbn [wp]
  | |- wp (getitem ?o _ _) _ _ _ => unfold getitem; destruct o eqn:?
  | |- wp (as_entry ?o _ _) _ _ _ => unfold as_entry; destruct o as [[]|] eqn:?
  | |- wp (fs_do ?op _ ?w) _ _ _ => unfold fs_do; destruct (op (fs w)) eqn:?; cbn [wp]
  | |- wp (log_write _ ?w) _ _ _ => unfold log_write; destruct (log w) eqn:?; cbn [wp]
  | |- wp (log_flush ?w) _ _ _ => unfold log_flush; destruct (log w) eqn:?; cbn [wp]
  | |- wp (try_pass _ _) _ _ _ => apply wp_try_pass
  | |- wp (try_except _ _ _) _ _ _ => apply wp_try_except
  end.

Ltac wp_run := repeat first [wp_prim | wp_case].

(** Projections of explicit worlds. *)
Ltac wsimpl :=
  cbn [state message progress can_cancel can_proceed cancelled proceeded url force base
       updatedir app modules moves log current_state updates new_state fs polls trace
       unpacked set_state set_message set_progress set_can_cancel set_can_proceed
       set_cancelled set_proceeded set_modules set_moves set_log set_current_state
       set_updates set_new_state set_fs set_polls set_trace set_unpacked
       orb andb negb] in *.

(** ** The stale set *)

Lemma check_versions_loop (l : list (string * jvalue)) (w : World) :
  wp (for_each (check_versions_item) l w)
    (λ _ w', modules w' =
               modules w ++ (filter (λ it, is_stale (updates w) (force w) it = true) l).*1 ∧
             same_but_modules w w')
    (λ e _, (∃ msg, e = PyException msg) ∧
            ∃ name d u, (name, d) ∈ l ∧ updates w !! name = Some u ∧
                        (version_of d = None ∨ version_of u = None))
    (λ _, False).
Proof.
  revert w. induction l as [|[name d] l IH]; intros w.
  { cbn. split; [by rewrite app_nil_r|done]. }
  cbn [for_each]. apply wp_bind.
  assert (Hrest : ∀ w1, updates w1 = updates w → force w1 = force w →
            wp (for_each (check_versions_item) l w1)
              (λ _ w', modules w' = modules w1 ++
                 (filter (λ it, is_stale (updates w) (force w) it = true) l).*1 ∧
                 same_but_modules w1 w')
              (λ e _, (∃ msg, e = PyException msg) ∧
                      ∃ n d' u, (n, d') ∈ (name, d) :: l ∧ updates w !! n = Some u ∧
                                (version_of d' = None ∨ version_of u = None))
              (λ _, False)).
  { intros w1 Hu Hf. eapply wp_mono; [apply IH|..]; cbn beta; [|
      |done].
    - intros _ w'. by rewrite Hu, Hf.
    - intros e _ [He (n & d' & u & Hin & Hup & Hv)]. split; [done|]. exists n, d', u.
      rewrite <- Hu. split_and!; [by right|done..]. }
  unfold check_versions_item at 1. apply wp_bind. cbn [wp get].
  rewrite filter_cons.
  assert (Hst : is_stale (updates w) (force w) (name, d) =
                match updates w !! name with
                | None => false
                | Some u =>
                    match version_of d, version_of u with
                    | Some v, Some v' => negb (String.eqb v v' && negb (force w))
                    | _, _ => false
                    end
                end) by done.
  destruct (updates w !! name) as [u|] eqn:Hu; cbn [wp mret M_ret].
  2:{ rewrite decide_False by (rewrite Hst; done).
      eapply wp_mono; [by apply Hrest|..]; [|done..]. done. }
  destruct d as [e| | |]; cbn [as_entry version_of];
    try (cbn; split; [by eexists|]; exists name; eexists; exists u;
         split_and!; [left|done|by left]).
  apply wp_bind. cbn [wp mret M_ret]. apply wp_bind.
  cbn [version_of] in Hst.
  destruct (Entry.version e) as [v|] eqn:Hv; cbn [getitem wp mret M_ret raise];
    [|split; [by eexists|]; exists name, (JEntry e), u; split_and!; [left|done|by left]].
  destruct u as [e'| | |]; cbn [as_entry version_of];
    try (cbn; split; [by eexists|]; exists name, (JEntry e); eexists;
         split_and!; [left|done|by right]).
  apply wp_bind. cbn [wp mret M_ret]. apply wp_bind.
  cbn [version_of] in Hst.
  destruct (Entry.version e') as [v'|] eqn:Hv'; cbn [getitem wp mret M_ret raise];
    [|split; [by eexists|]; exists name, (JEntry e), (JEntry e');
      split_and!; [left|done|by right]].
  destruct (String.eqb v v' && negb (force w)); cbn [negb] in Hst.
  - rewrite decide_False by (rewrite Hst; done). cbn [wp mret M_ret].
    eapply wp_mono; [by apply Hrest|..]; [|done..]. done.
  - rewrite decide_True by done. cbn [wp modify].
    eapply wp_mono; [by apply Hrest|..]; cbn beta; [|done..].
    intros _ w' [Hm Hs]. split.
    + rewrite Hm. cbn. by rewrite <- app_assoc.
    + unfold same_but_modules in *.
      apply (f_equal (set_modules (modules w))) in Hs. exact Hs.
Qed.

Lemma filter_fst_NoDup {A B} (P : A * B → Prop) `{!∀ x, Decision (P x)} (l : list (A * B)) :
  NoDup l.*1 → NoDup (filter P l).*1.
Proof.
  intros Hl. eapply sublist_NoDup; [exact Hl|].
  apply fmap_sublist, sublist_filter.
Qed.

Lemma check_versions_wp (w : World) :
  wp (check_versions w)
    (λ _ w', modules w' =
               (filter (λ it, is_stale (updates w) (force w) it = true)
                  (map_to_list (current_state w))).*1 ∧
             same_but_modules w w')
    (λ e _, (∃ msg, e = PyException msg) ∧
            ∃ name d u, current_state w !! name = Some d ∧ updates w !! name = Some u ∧
                        (version_of d = None ∨ version_of u = None))
    (λ _, False).
Proof.
  unfold check_versions. apply wp_bind. cbn [wp modify]. apply wp_bind. cbn [wp get].
  eapply wp_mono; [apply check_versions_loop|..]; cbn beta; [| |done].
  - intros _ w' [Hm Hs]. split; [done|].
    unfold same_but_modules in *.
    apply (f_equal (set_modules (modules w))) in Hs. exact Hs.
  - intros e _ [He (name & d & u & Hin & Hu & Hv)]. split; [done|]. exists name, d, u.
    split; [|done]. by apply elem_of_map_to_list.
Qed.

(** C5.  Whenever every name present in both the installed snapshot and the
    server manifest carries a version on both sides, [check_versions] returns
    and the stale set it leaves holds exactly the names present in both maps
    whose versions differ, or all the names present in both maps when [force]
    is set; a name present in one map only is never in it, and no name
    appears twice. *)
Theorem check_versions_stale_set (w : World) :
  (∀ name d u, current_state w !! name = Some d → updates w !! name = Some u →
     is_Some (version_of d) ∧ is_Some (version_of u)) →
  ∃ w', check_versions w = Ok tt w' ∧
        same_but_modules w w' ∧
        NoDup (modules w') ∧
        ∀ name, name ∈ modules w' ↔
          ∃ d u, current_state w !! name = Some d ∧ updates w !! name = Some u ∧
                 (version_of d ≠ version_of u ∨ force w = true).
Proof.
  intros Hwf. pose proof (check_versions_wp w) as Hwp.
  destruct (check_versions w) as [[] w'|e w'|c w'] eqn:Hrun; cbn [wp] in Hwp.
  - destruct Hwp as [Hm Hs]. exists w'. split_and!; [done..| |].
    + rewrite Hm. apply filter_fst_NoDup, NoDup_fst_map_to_list.
    + intros name. rewrite Hm. rewrite list_elem_of_fmap. split.
      * intros ([n d] & -> & [Hst Hin]%list_elem_of_filter).
        apply elem_of_map_to_list in Hin. cbn [fst].
        unfold is_stale in Hst. cbn [fst snd] in Hst.
        destruct (updates w !! n) as [u|] eqn:Hu; [|done].
        exists d, u. split_and!; [done..|].
        destruct (version_of d) as [v|]; [|done].
        destruct (version_of u) as [v'|]; [|done].
        destruct (force w); [by right|left].
        rewrite andb_true_r in Hst. apply negb_true_iff in Hst.
        apply String.eqb_neq in Hst. congruence.
      * intros (d & u & Hd & Hu & Hv). exists (name, d). split; [done|].
        apply list_elem_of_filter. split; [|by apply elem_of_map_to_list].
        unfold is_stale. cbn [fst snd]. rewrite Hu.
        destruct (Hwf _ _ _ Hd Hu) as [[v Hvd] [v' Hvu]]. rewrite Hvd, Hvu in *.
        destruct Hv as [Hv| ->]; [|by rewrite andb_false_r].
        assert (v ≠ v') as Hne%String.eqb_neq by congruence. by rewrite Hne.
  - destruct Hwp as [_ (name & d & u & Hd & Hu & Hv)].
    destruct (Hwf _ _ _ Hd Hu) as [[v Hvd] [v' Hvu]].
    destruct Hv; congruence.
  - done.
Qed.

(** ** The command line of the delta tool *)

Lemma seed_flags_own_module (E : Env) (w : World) (module target : string) :
  Forall (λ a, a = "-i" ∨ a = update_filename w module false)
    (flat_map (λ i : string, ["-i"; update_filename w module false]) (modules w)).
Proof.
  induction (modules w) as [|m ms IH]; [constructor|].
  cbn [flat_map app]. constructor; [by left|]. constructor; [by right|]. exact IH.
Qed.

(** C3.  With the stale set [a; b], the command line [download] builds for
    [a] passes the seed of [a] twice and the seed of [b] not at all: the
    paths after the [-i] flags are not one seed per module being updated. *)
Theorem download_seeds_repeat_module :
  let w := Demo2.world Demo.disk2 ["a"; "b"] in
  let cmd := fsencode Demo2.plain_env <$> zsync_cmd Demo2.plain_env w "a" "a.update" in
  seed_args cmd = ["/game/update/a.update"; "/game/update/a.update"] ∧
  ((λ n, update_filename w n false) <$> modules w) =
    ["/game/update/a.update"; "/game/update/b.update"] ∧
  ¬ seed_args cmd ≡ₚ (λ n, update_filename w n false) <$> modules w.
Proof.
  cbv zeta. split_and!; [by vm_compute..|].
  assert (Hs : seed_args (fsencode Demo2.plain_env <$>
                 zsync_cmd Demo2.plain_env (Demo2.world Demo.disk2 ["a"; "b"]) "a" "a.update")
               = ["/game/update/a.update"; "/game/update/a.update"]) by by vm_compute.
  assert (Hm : ((λ n, update_filename (Demo2.world Demo.disk2 ["a"; "b"]) n false) <$>
                 modules (Demo2.world Demo.disk2 ["a"; "b"]))
               = ["/game/update/a.update"; "/game/update/b.update"]) by by vm_compute.
  rewrite Hs, Hm. intros Hp.
  assert (Hin : "/game/update/b.update" ∈ ["/game/update/a.update"; "/game/update/a.update"]).
  { rewrite Hp. apply elem_of_cons. right. apply elem_of_cons. by left. }
  repeat (apply elem_of_cons in Hin as [Hin|Hin]; [discriminate|]).
  by apply elem_of_nil in Hin.
Qed.

(** ** The progress protocol of the delta tool *)





(** ** Filesystem operations change the path they name *)

Lemma only_at_refl (ps : list string) (f : fsmap) : only_at ps f f.
Proof. by intros q _. Qed.

Lemma only_at_trans (ps : list string) (f1 f2 f3 : fsmap) :
  only_at ps f1 f2 → only_at ps f2 f3 → only_at ps f1 f3.
Proof. intros H1 H2 q Hq. by rewrite H2, H1. Qed.

Lemma only_at_mono (ps ps' : list string) (f f' : fsmap) :
  ps ⊆ ps' → only_at ps f f' → only_at ps' f f'.
Proof. intros Hsub H q Hq. apply H. intros Hin. apply Hq, Hsub, Hin. Qed.

Lemma only_at_insert (ps : list string) (p : string) (n : node) (f : fsmap) :
  p ∈ ps → only_at ps f (<[p := n]> f).
Proof. intros Hp q Hq. apply lookup_insert_ne. by intros ->. Qed.

Lemma only_at_delete (ps : list string) (p : string) (f : fsmap) :
  p ∈ ps → only_at ps f (delete p f).
Proof. intros Hp q Hq. apply lookup_delete_ne. by intros ->. Qed.

Lemma write_file_only_at (E : Env) (ps : list string) (p d : string) (f f' : fsmap) :
  write_file E p d f = Some f' → p ∈ ps → only_at ps f f'.
Proof.
  unfold write_file. intros H Hp.
  destruct (os_permits E f (OpWrite p)); [|done].
  destruct (f !! p) as [[]|]; simplify_eq; by apply only_at_insert.
Qed.

Lemma unlink_only_at (E : Env) (ps : list string) (p : string) (f f' : fsmap) :
  unlink E p f = Some f' → p ∈ ps → only_at ps f f'.
Proof.
  unfold unlink. intros H Hp.
  destruct (os_permits E f (OpUnlink p)); [|done].
  destruct (f !! p) as [[]|]; simplify_eq; by apply only_at_delete.
Qed.

Lemma unlink_subseteq (E : Env) (p : string) (f f' : fsmap) :
  unlink E p f = Some f' → f' ⊆ f.
Proof.
  unfold unlink. intros H.
  destruct (os_permits E f (OpUnlink p)); [|done].
  destruct (f !! p) as [[]|]; simplify_eq. apply delete_subseteq.
Qed.

Lemma unlink_gone (E : Env) (p : string) (f f' : fsmap) :
  unlink E p f = Some f' → f' !! p = None.
Proof.
  unfold unlink. intros H.
  destruct (os_permits E f (OpUnlink p)); [|done].
  destruct (f !! p) as [[]|]; simplify_eq. apply lookup_delete_eq.
Qed.

Lemma unlink_refused (E : Env) (p : string) (f : fsmap) :
  unlink E p f = None → os_permits E f (OpUnlink p) = false ∨ no_file f p.
Proof.
  unfold unlink, no_file. intros H.
  destruct (os_permits E f (OpUnlink p)); [right|by left].
  by destruct (f !! p) as [[]|].
Qed.

Lemma chmod_only_at (E : Env) (ps : list string) (p : string) (m : Z) (f f' : fsmap) :
  chmod E p m f = Some f' → p ∈ ps → only_at ps f f'.
Proof.
  unfold chmod. intros H Hp.
  destruct (os_permits E f (OpChmod p)); [|done].
  destruct (f !! p) as [[]|]; simplify_eq;
    [by apply only_at_insert|apply only_at_refl].
Qed.

Lemma no_file_subseteq (f f' : fsmap) (p : string) :
  f' ⊆ f → no_file f p → no_file f' p.
Proof.
  unfold no_file. intros Hsub H.
  destruct (f' !! p) as [n|] eqn:Hp; [|done].
  by rewrite (lookup_weaken _ _ _ _ Hp Hsub) in H.
Qed.

#[global] Instance keeps_preorder : PreOrder keeps.
Proof.
  split.
  - intros w. unfold keeps. by repeat split.
  - intros w1 w2 w3 H12 H23. unfold keeps in *.
    destruct H12 as (?&?&?&?&?&?&?&?&?&?&?), H23 as (?&?&?&?&?&?&?&?&?&?&?).
    split_and!; congruence.
Qed.

Lemma frame_refl (ps : list string) (w : World) : frame ps w w.
Proof. split; [reflexivity|apply only_at_refl]. Qed.

Lemma frame_trans (ps : list string) (w1 w2 w3 : World) :
  frame ps w1 w2 → frame ps w2 w3 → frame ps w1 w3.
Proof.
  intros [Hk1 Hf1] [Hk2 Hf2]. split; [by etrans|by eapply only_at_trans].
Qed.

Lemma frame_mono (ps ps' : list string) (w w' : World) :
  ps ⊆ ps' → frame ps w w' → frame ps' w w'.
Proof. intros Hsub [Hk Hf]. split; [done|by eapply only_at_mono]. Qed.

Create HintDb upd.
#[global] Hint Resolve only_at_refl frame_refl : upd.
#[global] Hint Extern 1 (keeps _ _) => (unfold keeps; cbn; by repeat split) : upd.
#[global] Hint Extern 1 (_ ∈ _) => (cbn; set_solver) : upd.

(** A leaf of a symbolic execution: the world is an explicit term. *)
Ltac frame_leaf :=
  lazymatch goal with
  | |- frame _ _ _ =>
      split; [unfold keeps; cbn; by repeat split|cbn;
              eauto 6 using only_at_trans, write_file_only_at, unlink_only_at,
                chmod_only_at with upd]
  | |- True => exact I
  | _ => idtac
  end.

(** ** Cleaning *)

Lemma clean_wp (E : Env) (fn : string) (w : World) :
  wp (clean E fn w)
    (λ _ w', frame [os_path.join (updatedir w) fn] w w' ∧ fs w' ⊆ fs w ∧
             ((∀ f p, os_permits E f (OpUnlink p) = true) →
              no_file (fs w') (os_path.join (updatedir w) fn)) ∧
             state w' = state w ∧ message w' = message w)
    (λ _ _, False) (λ _, False).
Proof.
  unfold clean. wp_run; cbn.
  - split_and!; [frame_leaf|by eapply unlink_subseteq| |done..].
    intros _. unfold no_file. by erewrite unlink_gone.
  - split_and!; [frame_leaf|done| |done..].
    intros Hperm.
    match goal with H : unlink _ _ _ = None |- _ =>
      apply unlink_refused in H as [H|H]; [by rewrite Hperm in H|done] end.
  - split_and!; [frame_leaf|done| |done..].
    intros _. unfold no_file, path_exists in *.
    by destruct (fs w !! os_path.join (updatedir w) fn).
Qed.

Lemma clean_each_wp (E : Env) (g : string → string) (l : list string) (w : World) :
  wp (for_each (λ i, clean E (g i)) l w)
    (λ _ w', frame ((λ i, os_path.join (updatedir w) (g i)) <$> l) w w' ∧ fs w' ⊆ fs w ∧
             ((∀ f p, os_permits E f (OpUnlink p) = true) →
              ∀ i, i ∈ l → no_file (fs w') (os_path.join (updatedir w) (g i))) ∧
             state w' = state w ∧ message w' = message w)
    (λ _ _, False) (λ _, False).
Proof.
  revert w. induction l as [|x l IH]; intros w.
  { cbn. split_and!; [apply frame_refl|done| |done..].
    intros _ i Hi. by apply elem_of_nil in Hi. }
  cbn [for_each]. apply wp_bind.
  eapply wp_mono; [apply clean_wp|..]; cbn beta; [|done..].
  intros [] w1 (Hf1 & Hs1 & Hn1 & Hst1 & Hmsg1).
  eapply wp_mono; [apply IH|..]; cbn beta; [|done..].
  intros [] w2 (Hf2 & Hs2 & Hn2 & Hst2 & Hmsg2).
  assert (Hd : updatedir w1 = updatedir w) by apply Hf1. rewrite Hd in *.
  split_and!; [| | |congruence..].
  - eapply frame_trans; (eapply frame_mono; [|eassumption]); set_solver.
  - by etrans.
  - intros Hperm i [->|Hi]%elem_of_cons; [|by apply Hn2].
    eapply no_file_subseteq; [exact Hs2|by apply Hn1].
Qed.

Lemma clean_old_wp (E : Env) (w : World) :
  wp (clean_old E w)
    (λ _ w', frame ((λ m, update_filename w m false) <$> modules w) w w' ∧ fs w' ⊆ fs w ∧
             ((∀ f p, os_permits E f (OpUnlink p) = true) →
              ∀ m, m ∈ modules w → no_file (fs w') (update_filename w m false)) ∧
             state w' = state w ∧ message w' = message w)
    (λ _ _, False) (λ _, False).
Proof.
  unfold clean_old. apply wp_bind. cbn [wp get].
  apply (clean_each_wp E (λ i, i +:+ ".update")).
Qed.


(** ** What the fetch stages touch *)














Lemma frame_confined (ps : list string) (w w' : World) :
  Forall (λ p, in_dir (updatedir w) p = true) ps → frame ps w w' → confined w w'.
Proof.
  intros Hps [Hk Hf]. split; [apply Hk|].
  intros p Hp. apply Hf. intros Hin.
  rewrite Forall_forall in Hps. specialize (Hps p Hin). congruence.
Qed.

#[global] Instance confined_preorder : PreOrder confined.
Proof.
  split.
  - by intros w.
  - intros w1 w2 w3 [Hd1 Hf1] [Hd2 Hf2]. split; [congruence|].
    intros p Hp. rewrite Hf2, Hf1; [done..|]. by rewrite Hd1.
Qed.

(** ** Unpacking *)



#[global] Instance session_kept_preorder : PreOrder session_kept.
Proof.
  split.
  - intros w. unfold session_kept. by repeat split.
  - intros w1 w2 w3 H12 H23. unfold session_kept in *.
    destruct H12 as (?&?&?&?&?&?&?&?), H23 as (?&?&?&?&?&?&?&?).
    split_and!; congruence.
Qed.






Lemma keeps_updatedir (w w' : World) : keeps w w' → updatedir w' = updatedir w.
Proof. unfold keeps. naive_solver. Qed.

Lemma keeps_modules (w w' : World) : keeps w w' → modules w' = modules w.
Proof. unfold keeps. naive_solver. Qed.





(** ** Finalization *)









(** ** The whole update *)




(** ** The worker thread *)

Lemma run_unfold (E : Env) (w : World) :
  run E w =
  match update E w with
  | Ok _ w1 => clean_old E w1
  | Raise e w1 =>
      match handler e w1 with
      | Ok _ w2 => clean_old E w2
      | r => r
      end
  | Exec c w1 => Exec c w1
  end.
Proof.
  unfold run. rewrite bind_unfold. unfold try_except.
  destruct (update E w) as [[] w1|e w1|c w1]; [done| |done].
  by destruct (handler e w1) as [[] w2|e' w2|c w2].
Qed.

Lemma handler_spec (e : exn) (w : World) :
  ∃ w', handler e w = Ok tt w' ∧ keeps w w' ∧ fs w' = fs w ∧
        match e with
        | UpdateCancelled => state w' = CANCELLED
        | UpdateError msg | PyException msg => state w' = ERROR ∧ message w' = Some msg
        end.
Proof.
  destruct e as [|msg|msg].
  - eexists. split; [reflexivity|]. split_and!; auto with upd.
  - eexists. split; [reflexivity|]. split_and!; auto with upd.
  - eexists. split; [reflexivity|]. wsimpl.
    destruct (log w); split_and!; auto with upd.
Qed.

Lemma clean_old_cleaned (E : Env) (w : World) :
  ∃ w', clean_old E w = Ok tt w' ∧ cleaned E w w' ∧
        frame ((λ m, update_filename w m false) <$> modules w) w w' ∧
        state w' = state w ∧ message w' = message w.
Proof.
  pose proof (clean_old_wp E w) as H.
  destruct (clean_old E w) as [[] w'|e w'|c w']; [|done..].
  destruct H as (Hf & Hsub & Hno & Hst & Hmsg). exists w'.
  split_and!; [done| |done..].
  assert (Hm : modules w' = modules w) by apply (keeps_modules _ _ (proj1 Hf)).
  assert (Hd : updatedir w' = updatedir w) by apply (keeps_updatedir _ _ (proj1 Hf)).
  split_and!; [done..|].
  intros Hperm m Hin. unfold update_filename. rewrite Hd. apply Hno; [done|].
  by rewrite <- Hm.
Qed.

(** C4.  Whatever [update] does, [run] catches it and then cleans: when
    [update] returns, [run] returns in the state it left; when it raises
    [UpdateCancelled], [run] returns in the state [CANCELLED]; when it raises
    anything else, [run] returns in the state [ERROR] with the text of the
    exception as message.  In the three cases the cleanup has run: the world
    [run] leaves has the same stale set, a filesystem from which files were
    only removed, and, where no removal is refused, no seed archive
    [<module>.update] of a module of the stale set. *)
Theorem run_handles_every_exit (E : Env) (w : World) :
  match update E w with
  | Ok _ w1 =>
      ∃ wf, run E w = Ok tt wf ∧ state wf = state w1 ∧ message wf = message w1 ∧
            cleaned E w1 wf
  | Raise e w1 =>
      ∃ wf, run E w = Ok tt wf ∧
            match e with
            | UpdateCancelled => state wf = CANCELLED
            | UpdateError msg | PyException msg =>
                state wf = ERROR ∧ message wf = Some msg
            end ∧
            cleaned E w1 wf
  | Exec c w1 => run E w = Exec c w1
  end.
Proof.
  rewrite run_unfold. destruct (update E w) as [[] w1|e w1|c w1]; [| |done].
  - destruct (clean_old_cleaned E w1) as (wf & -> & Hc & _ & Hst & Hmsg).
    by exists wf.
  - destruct (handler_spec e w1) as (w2 & -> & Hk & Hfs & He).
    destruct (clean_old_cleaned E w2) as (wf & -> & (Hm & Hsub & Hno) & _ & Hst & Hmsg).
    exists wf. split; [done|]. split.
    + destruct e; [congruence|split; destruct He; congruence..].
    + split_and!; [|by rewrite <- Hfs|done].
      by rewrite Hm, (keeps_modules _ _ Hk).
Qed.

(** ** The digest check *)




(** ** The snapshot written at the end *)








(** ** An archive without its snapshot *)





(** ** The seed archive *)




(** ** Reported progress *)





Lemma steps_snoc (s : ustate) (n i k : nat) :
  steps s n i k ++ [(s, Some (fraction (i + k) n))] = steps s n i (S k).
Proof. unfold steps. by rewrite seq_S, fmap_app. Qed.






(** ** The [monkeypatch] field *)

(** C2, as stated, fails.  The manifests [served_same] and
    [served_same+patch] differ in a [monkeypatch] field only, whose value is
    the number 0.  With the first the session ends in UPDATE NOT AVAILABLE;
    with the second [exec] raises and the session ends in ERROR. *)
Lemma monkeypatch_is_executed :
  (∃ d1 d2,
     Demo.load "served_same" = Some d1 ∧ Demo.load "served_same+patch" = Some d2 ∧
     d2 !! "monkeypatch" = Some (JInt 0) ∧
     delete "monkeypatch" d1 = delete "monkeypatch" d2 ∧
     final_state (Updater (serving Demo2.plain_env "served_same")
                    Demo.url "/game" false Demo.disk) = UPDATE_NOT_AVAILABLE ∧
     final_state (Updater (serving Demo2.plain_env "served_same+patch")
                    Demo.url "/game" false Demo.disk) = ERROR) ∧
  ¬ monkeypatch_ignored.
Proof.
  assert (Hd : delete "monkeypatch" Demo.served_same =
               delete "monkeypatch" (<["monkeypatch" := JInt 0]> Demo.served_same)).
  { by rewrite delete_insert_eq. }
  split.
  - exists Demo.served_same, (<["monkeypatch" := JInt 0]> Demo.served_same).
    split_and!; [done|done|by rewrite lookup_insert_eq|exact Hd|by vm_compute..].
  - intros H.
    specialize (H Demo2.plain_env "served_same" "served_same+patch" _ _
                  Demo.url "/game" false Demo.disk eq_refl eq_refl Hd).
    vm_compute in H. discriminate H.
Qed.

(** C2, amended.  [check_updates] writes what the server sends to
    [<updatedir>/updates.json], parses it and stores the map in
    [self.updates]; when the map has no [monkeypatch] field nothing else
    happens.  A [monkeypatch] field is not ignored: a string is handed to
    [exec], and any other value makes [exec] raise a TypeError. *)
Theorem check_updates_executes_monkeypatch (E : Env) (w : World) (body parsed : string)
    (f1 : fsmap) (d : document) :
  urlretrieve E (url w) = Some body →
  write_file E (os_path.join (updatedir w) "updates.json") body (fs w) = Some f1 →
  read_file E f1 (os_path.join (updatedir w) "updates.json") = Some parsed →
  json_load E parsed = Some d →
  check_updates E w =
  match d !! "monkeypatch" with
  | None => Ok tt (set_updates d (set_fs f1 w))
  | Some (JStr code) => Exec code (set_updates d (set_fs f1 w))
  | Some _ =>
      Raise (PyException "TypeError: exec: arg 1 must be a string, file, or code object")
        (set_updates d (set_fs f1 w))
  end.
Proof.
  intros Hget Hwrite Hread Hload. unfold check_updates.
  rewrite bind_unfold. cbn [get]. rewrite Hget.
  rewrite bind_unfold. unfold fs_do. rewrite Hwrite.
  rewrite bind_unfold. cbn [get]. wsimpl. rewrite Hread, Hload.
  rewrite bind_unfold. cbn [modify].
  by destruct (d !! "monkeypatch") as [[]|].
Qed.

(** ** The scenarios, checked *)

(** The stale set of an installation of [a] and [b], both at version 1, when
    the server has both at version 2. *)
Lemma check_versions_stale_set_example :
  let w := Demo2.world Demo.disk2 [] in
  ∃ w', check_versions w = Ok tt w' ∧
        same_but_modules w w' ∧
        NoDup (modules w') ∧
        ∀ name, name ∈ modules w' ↔
          ∃ d u, current_state w !! name = Some d ∧ updates w !! name = Some u ∧
                 (version_of d ≠ version_of u ∨ force w = true).
Proof.
  apply (check_versions_stale_set (Demo2.world Demo.disk2 [])).
  intros name d u Hd Hu. cbn [current_state updates Demo2.world] in Hd, Hu.
  unfold Demo.installed2 in Hd. unfold Demo.served2 in Hu.
  apply lookup_insert_Some in Hd as [[_ <-]|[_ [_ <-]%lookup_singleton_Some]];
    apply lookup_insert_Some in Hu as [[_ <-]|[_ [_ <-]%lookup_singleton_Some]];
    split; by eexists.
Defined.



(** A manifest whose [monkeypatch] field is the number 0. *)
Lemma check_updates_executes_monkeypatch_example :
  let E := serving Demo2.plain_env "served_same+patch" in
  let w := Demo2.started E Demo.disk in
  ∃ w', check_updates E w =
          Raise (PyException "TypeError: exec: arg 1 must be a string, file, or code object")
            w' ∧
        updates w' !! "monkeypatch" = Some (JInt 0).
Proof.
  cbv zeta.
  set (E := serving Demo2.plain_env "served_same+patch").
  set (w := Demo2.started E Demo.disk).
  set (f1 := <["/game/update/updates.json" := File "served_same+patch" (create_mode E)]>
               (fs w)).
  pose proof (check_updates_executes_monkeypatch E w
                "served_same+patch" "served_same+patch" f1
                (<["monkeypatch" := JInt 0]> Demo.served_same)) as H.
  rewrite lookup_insert_eq in H.
  eexists. split.
  - apply H; by vm_compute.
  - cbn [updates set_updates]. apply lookup_insert_eq.
Defined.




